(** * RA.Aid token limiter: limit resolution and message trimming

    A shallow embedding of [ra_aid/anthropic_token_limiter.py].

    Python values are modelled by a small value type with Python's
    truthiness, dictionaries by stdpp's [gmap], exceptions by an explicit
    error monad.  Only instances of Python's [Exception] class are
    modelled; system-exiting [BaseException]s (KeyboardInterrupt,
    SystemExit) are outside the model, as they are outside every
    [except Exception] clause of the source. *)

From Stdlib Require Import ZArith Lia Ascii.
From stdpp Require Import base option list strings gmap pretty.

Local Open Scope string_scope.
Local Open Scope list_scope.
Local Open Scope Z_scope.

(** ** The Python run-time model *)

Module Py.

(** Values stored in a [Dict[str, Any]] configuration. *)
Inductive PyVal : Type :=
  | VNone
  | VBool (b : bool)
  | VInt (z : Z)
  | VStr (s : string).

(** [bool(v)]: None, False, 0 and the empty string are falsy. *)
Definition truthy (v : PyVal) : bool :=
  match v with
  | VNone => false
  | VBool b => b
  | VInt z => negb (z =? 0)
  | VStr s => negb (String.eqb s "")
  end.

(** [a or b] *)
Definition py_or (a b : PyVal) : PyVal :=
  if truthy a then a else b.

(** [str(v)], as used by an f-string. *)
Definition py_str (v : PyVal) : string :=
  match v with
  | VNone => "None"
  | VBool true => "True"
  | VBool false => "False"
  | VInt z => pretty z
  | VStr s => s
  end.

(** [d.get(key, default)] *)
Definition dict_get {V : Type} (d : gmap string V) (key : string) (dflt : V) : V :=
  default dflt (d !! key).

(** [bool(n)] for an [Optional[int]]. *)
Definition truthy_int (n : option Z) : bool :=
  match n with
  | None => false
  | Some z => negb (z =? 0)
  end.

(** [s.replace("-", "")]: every hyphen is dropped. *)
Fixpoint replace_hyphen (s : string) : string :=
  match s with
  | EmptyString => EmptyString
  | String c rest =>
      if Ascii.eqb c "-"%char then replace_hyphen rest
      else String c (replace_hyphen rest)
  end.

(** Exception classes ([Exception] and below).  [NotImplementedError]
    stands for the subclasses of [RuntimeError]. *)
Inductive exception : Type :=
  | RuntimeError
  | NotImplementedError
  | KeyError
  | AttributeError
  | TypeError
  | ValueError
  | OtherException (cls : string).

(** [isinstance(e, RuntimeError)] *)
Definition isinstance_RuntimeError (e : exception) : bool :=
  match e with
  | RuntimeError | NotImplementedError => true
  | _ => false
  end.

(** A computation either returns or raises. *)
Inductive result (A : Type) : Type :=
  | Ok (a : A)
  | Raise (e : exception).

Arguments Ok {A} a.
Arguments Raise {A} e.

Definition bind {A B : Type} (m : result A) (k : A -> result B) : result B :=
  match m with
  | Ok a => k a
  | Raise e => Raise e
  end.

(** [try: body  except RuntimeError: handler] *)
Definition try_except_RuntimeError {A : Type} (body : result A) (handler : result A) : result A :=
  match body with
  | Ok a => Ok a
  | Raise e => if isinstance_RuntimeError e then handler else Raise e
  end.

(** [try: body  except Exception as e: handler(e)] *)
Definition try_except_Exception {A : Type} (body : result A) (handler : exception -> result A) : result A :=
  match body with
  | Ok a => Ok a
  | Raise e => handler e
  end.

End Py.

Import Py.

#[global] Instance result_ret : MRet result := fun _ a => Ok a.
#[global] Instance result_bind : MBind result := fun _ _ k m => bind m k.

(** Expose the sequencing of [result] computations. *)
Ltac unfold_bind := unfold mbind, result_bind, bind.
Tactic Notation "unfold_bind" "in" hyp(H) := unfold mbind, result_bind, bind in H.

(** ** Data model *)

(** A LangChain message: its type tag (system, human, ai, tool) and its
    content. *)
Record BaseMessage : Type := {
  msg_type : string;
  msg_content : string
}.

(** The flat record litellm's counter expects. *)
Record LitellmMessage : Type := {
  role : string;
  content : string
}.

(** [AgentState]: only the ["messages"] entry is read. *)
Record AgentState : Type := {
  messages : list BaseMessage
}.

(** A live model handle.  An attribute the object does not have is
    [None] ([hasattr] is false); [max_tokens] may be present and hold
    Python's None. *)
Record BaseChatModel : Type := {
  model_attr : option string;
  model_name_attr : option string;
  max_tokens_attr : option (option Z)
}.

(** ** The sessions router ([ra_aid/server/api_v1_sessions.py]) *)

Module Sessions.

(** What a handler or the repository can raise: a [peewee.DatabaseError]
    (or a subclass) with its [str(e)], a FastAPI [HTTPException], or an
    exception of any other class. *)
Inductive error : Type :=
  | DatabaseError (message : string)
  | HTTPException (status_code : Z) (detail : string)
  | OtherError (cls message : string).

Inductive outcome (A : Type) : Type :=
  | Return (a : A)
  | Raised (e : error).

Arguments Return {A} a.
Arguments Raised {A} e.

Definition and_then {A B : Type} (m : outcome A) (k : A -> outcome B) : outcome B :=
  match m with
  | Return a => k a
  | Raised e => Raised e
  end.

Definition HTTP_404_NOT_FOUND : Z := 404.
Definition HTTP_500_INTERNAL_SERVER_ERROR : Z := 500.

(** [try: body
     except peewee.DatabaseError as e:
         raise HTTPException(status_code=500, detail=f"Database error: {str(e)}")] *)
Definition except_DatabaseError {A : Type} (body : outcome A) : outcome A :=
  match body with
  | Raised (DatabaseError message) =>
      Raised (HTTPException HTTP_500_INTERNAL_SERVER_ERROR
                ("Database error: " +:+ message))
  | _ => body
  end.

Record CreateSessionRequest : Type := {
  metadata : option (gmap string PyVal)
}.

Section Handlers.

(** [ra_aid.database.pydantic_models.SessionModel] *)
Variable SessionModel : Type.

Record PaginatedSessionResponse : Type := {
  total : Z;
  items : list SessionModel;
  limit : Z;
  offset : Z
}.

(** The three methods of [SessionRepository] the router calls, by what
    they return or raise. *)
Record SessionRepository : Type := {
  repo_get_all : Z -> Z -> outcome (list SessionModel * Z);
  repo_get : Z -> outcome (option SessionModel);
  repo_create_session : option (gmap string PyVal) -> outcome SessionModel
}.

Definition list_sessions (offset limit : Z) (repo : SessionRepository)
    : outcome PaginatedSessionResponse :=
  except_DatabaseError
    (and_then (repo_get_all repo offset limit) (fun '(sessions, total) =>
     Return {| total := total; items := sessions; limit := limit; offset := offset |})).

Definition get_session (session_id : Z) (repo : SessionRepository)
    : outcome SessionModel :=
  except_DatabaseError
    (and_then (repo_get repo session_id) (fun session =>
     match session with
     | None =>
         Raised (HTTPException HTTP_404_NOT_FOUND
                   ("Session with ID " +:+ pretty session_id +:+ " not found"))
     | Some found => Return found
     end)).

Definition create_session (request : option CreateSessionRequest)
    (repo : SessionRepository) : outcome SessionModel :=
  except_DatabaseError
    (let metadata :=
       match request with
       | Some body => metadata body
       | None => None
       end in
     repo_create_session repo metadata).

End Handlers.

End Sessions.

(** ** Vocabulary of the statements *)

(** The keys [get_provider_and_model_for_agent_type] looks up for an
    agent type. *)
Definition keys_read (agent_type : string) : list string :=
  if String.eqb agent_type "research" then
    ["research_provider"; "provider"; "research_model"; "model"]
  else if String.eqb agent_type "planner" then
    ["planner_provider"; "provider"; "planner_model"; "model"]
  else ["provider"; "model"].

Fixpoint has_hyphen (s : string) : bool :=
  match s with
  | EmptyString => false
  | String c rest => Ascii.eqb c "-"%char || has_hyphen rest
  end.

(** ** Sample collaborators, used to run the definitions on concrete inputs *)

(** A recogniser for the extended-reasoning family by substring. *)
Fixpoint contains (pat s : string) : bool :=
  match s with
  | EmptyString => String.eqb pat ""
  | String _ rest => String.prefix pat s || contains pat rest
  end.

Definition sample_is_claude_37 (id : string) : bool :=
  contains "claude-3.7" id || contains "claude3.7" id || contains "claude-3-7" id.

(** A local heuristic: one token per two characters of content. *)
Definition sample_estimate_tokens (m : BaseMessage) : Z :=
  Z.of_nat (String.length (msg_content m)) / 2.

(** A service counter: three tokens of framing per message plus one per
    character. *)
Definition sample_token_counter (ms : list LitellmMessage) (model : string) : Z :=
  foldr (fun m acc => 3 + Z.of_nat (String.length (content m)) + acc) 0 ms.

Definition sample_models_params : gmap string (gmap string (gmap string Z)) :=
  {[ "anthropic" := {[ "claude2" := {[ "token_limit" := 100000 ]} ]} ]}.

Definition claude_37_handle (max_tokens : Z) : BaseChatModel :=
  {| model_attr := Some "claude-3-7-sonnet-20250219";
     model_name_attr := None;
     max_tokens_attr := Some (Some max_tokens) |}.

Definition msg (ty body : string) : BaseMessage :=
  {| msg_type := ty; msg_content := body |}.

(** The metadata service knows no model, knows a 200000-token model, or
    answers with a record that lacks [max_input_tokens]. *)
Definition unknown_model_info (id : PyVal) : result (gmap string (option Z)) :=
  Raise (OtherException "Exception").

Definition known_model_info (id : PyVal) : result (gmap string (option Z)) :=
  Ok {[ "max_input_tokens" := Some 200000 ]}.

Definition bare_model_info (id : PyVal) : result (gmap string (option Z)) :=
  Ok {[ "max_output_tokens" := Some 4096 ]}.

Definition sample_config : gmap string PyVal :=
  {[ "provider" := VStr "anthropic"; "model" := VStr "claude-2" ]}.

Definition research_config : gmap string PyVal :=
  {[ "research_model" := VStr "m1"; "model" := VStr "m2" ]}.

Definition sample_history : list BaseMessage :=
  [msg "system" "You are an agent."; msg "human" "Fix the bug.";
   msg "ai" "Reading the file."; msg "tool" "def f(): pass";
   msg "ai" "Done."].



(** A configuration whose model entry holds None, a table whose only row
    has no ["token_limit"], and a table keyed with a hyphen. *)
Definition none_model_config : gmap string PyVal :=
  {[ "provider" := VStr "anthropic"; "model" := VNone ]}.

Definition limitless_models_params : gmap string (gmap string (gmap string Z)) :=
  {[ "anthropic" := {[ "claude2" := {[ "max_tokens" := 4096 ]} ]} ]}.

Definition hyphenated_models_params : gmap string (gmap string (gmap string Z)) :=
  {[ "anthropic" := {[ "claude-2" := {[ "token_limit" := 100000 ]} ]} ]}.

(** A repository of two sessions, numbered 1 and 2, whose database fails
    on session 13 and on every insertion. *)
Definition sample_repository : Sessions.SessionRepository Z :=
  {| Sessions.repo_get_all := fun offset limit => Sessions.Return ([1; 2], 2);
     Sessions.repo_get := fun session_id =>
       if session_id =? 13 then Sessions.Raised (Sessions.DatabaseError "database is locked")
       else if (1 <=? session_id) && (session_id <=? 2)
            then Sessions.Return (Some session_id)
            else Sessions.Return None;
     Sessions.repo_create_session := fun metadata =>
       Sessions.Raised (Sessions.DatabaseError "database is locked") |}.

(** ** The program *)

Section TokenLimiter.

(** [ra_aid.config.DEFAULT_MODEL] *)
Variable DEFAULT_MODEL : string.
(** [ra_aid.model_detection.is_claude_37] *)
Variable is_claude_37 : string -> bool.
(** [CiaynAgent._estimate_tokens] *)
Variable estimate_tokens : BaseMessage -> Z.
(** [litellm.token_counter(messages=..., model=...)] *)
Variable token_counter : list LitellmMessage -> string -> Z.
(** Outcome of [get_config_repository().get_all()] *)
Variable get_all : result (gmap string PyVal).
(** [litellm.get_model_info] *)
Variable get_model_info : PyVal -> result (gmap string (option Z)).
(** [ra_aid.models_params.models_params] *)
Variable models_params : gmap string (gmap string (gmap string Z)).

Definition estimate_messages_tokens (msgs : list BaseMessage) : Z :=
  match msgs with
  | [] => 0
  | _ => foldr (fun m acc => estimate_tokens m + acc) 0 msgs
  end.

Definition convert_message_to_litellm_format (message : BaseMessage) : LitellmMessage :=
  {| role := msg_type message; content := msg_content message |}.

Definition create_token_counter_wrapper (model : string) (msgs : list BaseMessage) : Z :=
  match msgs with
  | [] => 0
  | _ => token_counter (convert_message_to_litellm_format <$> msgs) model
  end.

Definition get_model_name_from_chat_model (model : option BaseChatModel) : string :=
  match model with
  | None => DEFAULT_MODEL
  | Some m =>
      match model_attr m with
      | Some name => name
      | None =>
          match model_name_attr m with
          | Some name => name
          | None => DEFAULT_MODEL
          end
      end
  end.

(** Modelled from the spec: the "last" strategy shared by
    [anthropic_trim_messages] (ra_aid/anthropic_message_utils.py, not in
    src) and by langchain's [trim_messages].  "Starting from the most
    recent message and working backwards, accumulate messages while total
    token count (prefix + accumulated suffix) stays within max_tokens;
    stop before exceeding it"; no message is split.  [newest_first] is
    the remainder in reverse order, [acc] the suffix accumulated so far. *)
Fixpoint accumulate_last (counter : list BaseMessage -> Z) (max_tokens : Z)
    (kept newest_first acc : list BaseMessage) : list BaseMessage :=
  match newest_first with
  | [] => acc
  | m :: older =>
      if counter (kept ++ m :: acc) <=? max_tokens
      then accumulate_last counter max_tokens kept older (m :: acc)
      else acc
  end.

(** Modelled from the spec: the trimming of the remainder behind a
    mandatory prefix [kept], with the edge case of spec 4.3: "if even the
    mandatory prefix's token cost meets or exceeds max_tokens, the
    remainder is empty (trim to zero additional messages) rather than
    raising"; otherwise the remainder is accumulated from its most recent
    message. *)
Definition trim_remainder (counter : list BaseMessage -> Z) (max_tokens : Z)
    (kept remaining : list BaseMessage) : list BaseMessage :=
  if max_tokens <=? counter kept then []
  else accumulate_last counter max_tokens kept (reverse remaining) [].

(** Modelled from the spec: [anthropic_trim_messages] with strategy
    "last" and [allow_partial=False] (Policy A).  "The first keep_first_n
    messages are always retained verbatim"; "output is
    prefix-concatenated-with-trimmed-suffix"; "empty input -> empty
    output, no counter invocation". *)
Definition anthropic_trim_messages (msgs : list BaseMessage)
    (counter : list BaseMessage -> Z) (max_tokens : Z)
    (num_messages_to_keep : nat) : list BaseMessage :=
  match msgs with
  | [] => []
  | _ =>
      let kept_messages := take num_messages_to_keep msgs in
      let remaining_msgs := drop num_messages_to_keep msgs in
      kept_messages ++ trim_remainder counter max_tokens kept_messages remaining_msgs
  end.

(** Modelled from the spec: langchain's [trim_messages] with strategy
    "last" and [allow_partial=False], as Policy B uses it: "the remaining
    messages are trimmed identically to Policy A's suffix logic", with no
    prefix of its own; Policy B has already taken the cost of the first
    message off the budget it passes. *)
Definition trim_messages (msgs : list BaseMessage)
    (counter : list BaseMessage -> Z) (max_tokens : Z) : list BaseMessage :=
  trim_remainder counter max_tokens [] msgs.

(** The log line written when messages were dropped has no effect on the
    result and is left out. *)
Definition state_modifier (state : AgentState) (model : option BaseChatModel)
    (max_input_tokens : Z) : list BaseMessage :=
  match messages state with
  | [] => []
  | msgs =>
      let model_name := get_model_name_from_chat_model model in
      let wrapped_token_counter := create_token_counter_wrapper model_name in
      anthropic_trim_messages msgs wrapped_token_counter max_input_tokens 2
  end.

Definition sonnet_35_state_modifier (state : AgentState)
    (max_input_tokens : Z) : list BaseMessage :=
  match messages state with
  | [] => []
  | first_message :: remaining_messages =>
      let first_tokens := estimate_messages_tokens [first_message] in
      let new_max_tokens := max_input_tokens - first_tokens in
      let trimmed_remaining :=
        trim_messages remaining_messages estimate_messages_tokens new_max_tokens in
      [first_message] ++ trimmed_remaining
  end.

Definition get_provider_and_model_for_agent_type (config : gmap string PyVal)
    (agent_type : string) : PyVal * PyVal :=
  if String.eqb agent_type "research" then
    (py_or (dict_get config "research_provider" (VStr "")) (dict_get config "provider" (VStr "")),
     py_or (dict_get config "research_model" (VStr "")) (dict_get config "model" (VStr "")))
  else if String.eqb agent_type "planner" then
    (py_or (dict_get config "planner_provider" (VStr "")) (dict_get config "provider" (VStr "")),
     py_or (dict_get config "planner_model" (VStr "")) (dict_get config "model" (VStr "")))
  else
    (dict_get config "provider" (VStr ""), dict_get config "model" (VStr "")).

(** [model and hasattr(model, "model") and is_claude_37(model.model)] *)
Definition is_claude_37_handle (model : option BaseChatModel) : bool :=
  match model with
  | None => false
  | Some m =>
      match model_attr m with
      | None => false
      | Some id => is_claude_37 id
      end
  end.

Definition adjust_claude_37_token_limit (max_input_tokens : option Z)
    (model : option BaseChatModel) : option Z :=
  match max_input_tokens with
  | None => None
  | Some limit =>
      if negb (truthy_int (Some limit)) then max_input_tokens
      else if is_claude_37_handle model then
        match model ≫= max_tokens_attr with
        | Some (Some max_tokens) =>
            if truthy_int (Some max_tokens) then Some (limit - max_tokens)
            else max_input_tokens
        | _ => max_input_tokens
        end
      else max_input_tokens
  end.

(** The fallback to [models_params]: [model_name.replace] exists on
    strings only; [models_params.get(provider, {})] finds nothing under a
    key that is not a string; a row without ["token_limit"] raises. *)
Definition fallback_limit (provider model_name : PyVal) : result (option Z) :=
  normalized_name ←
    match model_name with
    | VStr s => Ok (replace_hyphen s)
    | _ => Raise AttributeError
    end;
  let provider_tokens : gmap string (gmap string Z) :=
    match provider with
    | VStr p => dict_get models_params p ∅
    | _ => ∅
    end in
  match provider_tokens !! normalized_name with
  | Some row =>
      match row !! "token_limit" with
      | Some limit => Ok (Some limit)
      | None => Raise KeyError
      end
  | None => Ok None
  end.

(** The inner [try] block around litellm: [Some limit] when it returns
    from the function, [None] when control falls through to the
    fallback.  The [return adjust_claude_37_token_limit(...)] sits inside
    the block; on the integers and handles modelled here the adjustment
    raises nothing. *)
Definition litellm_limit (provider_model : PyVal)
    (model : option BaseChatModel) : result (option (option Z)) :=
  try_except_Exception
    (model_info ← get_model_info provider_model;
     let max_input_tokens := dict_get model_info "max_input_tokens" None in
     if truthy_int max_input_tokens
     then Ok (Some (adjust_claude_37_token_limit max_input_tokens model))
     else Ok None)
    (fun _ => Ok None).

(** The configuration used: the repository's when it can be read, the
    caller's when reading it raises [RuntimeError]. *)
Definition effective_config (config : gmap string PyVal) : result (gmap string PyVal) :=
  try_except_RuntimeError get_all (Ok config).

(** [model_name if not provider else f"{provider}/{model_name}"] *)
Definition provider_model (provider model_name : PyVal) : PyVal :=
  if negb (truthy provider) then model_name
  else VStr (py_str provider +:+ "/" +:+ py_str model_name).

(** The body of the outer [try] block. *)
Definition resolve_limit (config : gmap string PyVal) (agent_type : string)
    (model : option BaseChatModel) : result (option Z) :=
  config ← effective_config config;
  let '(provider, model_name) :=
    get_provider_and_model_for_agent_type config agent_type in
  returned ← litellm_limit (provider_model provider model_name) model;
  match returned with
  | Some limit => Ok limit
  | None =>
      max_input_tokens ← fallback_limit provider model_name;
      Ok (adjust_claude_37_token_limit max_input_tokens model)
  end.

Definition get_model_token_limit (config : gmap string PyVal)
    (agent_type : string) (model : option BaseChatModel) : result (option Z) :=
  try_except_Exception (resolve_limit config agent_type model) (fun _ => Ok None).



(** ** Trimming *)

Lemma accumulate_last_split counter max_tokens kept newest_first acc :
  exists dropped : list BaseMessage,
    reverse newest_first ++ acc
    = dropped ++ accumulate_last counter max_tokens kept newest_first acc.
Proof.
  revert acc. induction newest_first as [|m older IH]; intros acc; simpl.
  - exists []. reflexivity.
  - rewrite reverse_cons, <- app_assoc. simpl.
    destruct (counter (kept ++ m :: acc) <=? max_tokens).
    + apply IH.
    + exists (reverse older ++ [m]). rewrite <- app_assoc. reflexivity.
Qed.

Lemma accumulate_last_suffix counter max_tokens kept remaining :
  accumulate_last counter max_tokens kept (reverse remaining) [] `suffix_of` remaining.
Proof.
  destruct (accumulate_last_split counter max_tokens kept (reverse remaining) [])
    as [dropped Hsplit].
  rewrite reverse_involutive, app_nil_r in Hsplit.
  exists dropped. exact Hsplit.
Qed.


Lemma accumulate_last_stop counter max_tokens kept m older :
  max_tokens < counter (kept ++ [m]) ->
  accumulate_last counter max_tokens kept (m :: older) [] = [].
Proof.
  intros Hover. simpl.
  destruct (Z.leb_spec (counter (kept ++ [m])) max_tokens); [lia | reflexivity].
Qed.

(** Whatever was accumulated fits the budget together with the prefix. *)
Lemma accumulate_last_within counter max_tokens kept newest_first acc :
  (acc <> [] -> counter (kept ++ acc) <= max_tokens) ->
  accumulate_last counter max_tokens kept newest_first acc <> [] ->
  counter (kept ++ accumulate_last counter max_tokens kept newest_first acc)
  <= max_tokens.
Proof.
  revert acc. induction newest_first as [|m older IH]; intros acc Hacc Hne;
    simpl in *.
  - auto.
  - destruct (Z.leb_spec (counter (kept ++ m :: acc)) max_tokens) as [Hfit|Hover].
    + apply IH; [intros _; exact Hfit | exact Hne].
    + auto.
Qed.

(** The accumulation stops only at the end of the history or in front of
    a message that would exceed the budget. *)
Lemma accumulate_last_stops_at counter max_tokens kept newest_first acc :
  exists taken older : list BaseMessage,
    newest_first = taken ++ older /\
    accumulate_last counter max_tokens kept newest_first acc = reverse taken ++ acc /\
    match older with
    | [] => True
    | m :: _ => max_tokens < counter (kept ++ m :: reverse taken ++ acc)
    end.
Proof.
  revert acc. induction newest_first as [|m rest IH]; intros acc; simpl.
  - exists [], []. repeat split.
  - destruct (Z.leb_spec (counter (kept ++ m :: acc)) max_tokens) as [Hfit|Hover].
    + destruct (IH (m :: acc)) as [taken [older [-> [Hres Hstop]]]].
      exists (m :: taken), older.
      rewrite reverse_cons, <- app_assoc. simpl.
      split; [reflexivity | split; [exact Hres | exact Hstop]].
    + exists [], (m :: rest). repeat split. exact Hover.
Qed.

Lemma trim_remainder_suffix counter max_tokens kept remaining :
  trim_remainder counter max_tokens kept remaining `suffix_of` remaining.
Proof.
  unfold trim_remainder. destruct (max_tokens <=? counter kept).
  - apply suffix_nil.
  - apply accumulate_last_suffix.
Qed.

Lemma trim_remainder_none counter max_tokens kept remaining :
  max_tokens <= counter kept -> trim_remainder counter max_tokens kept remaining = [].
Proof.
  intros Hmeets. unfold trim_remainder.
  destruct (Z.leb_spec max_tokens (counter kept)); [reflexivity | lia].
Qed.



Lemma trim_remainder_within counter max_tokens kept remaining :
  trim_remainder counter max_tokens kept remaining <> [] ->
  counter (kept ++ trim_remainder counter max_tokens kept remaining) <= max_tokens.
Proof.
  unfold trim_remainder. destruct (max_tokens <=? counter kept); [congruence|].
  apply accumulate_last_within. congruence.
Qed.

Lemma anthropic_trim_messages_shape msgs counter max_tokens n :
  exists kept_suffix : list BaseMessage,
    kept_suffix `suffix_of` drop n msgs /\
    anthropic_trim_messages msgs counter max_tokens n = take n msgs ++ kept_suffix.
Proof.
  destruct msgs as [|m0 rest].
  - exists []. split; [rewrite drop_nil; reflexivity | rewrite take_nil; reflexivity].
  - eexists. split; [|reflexivity]. apply trim_remainder_suffix.
Qed.

Lemma trim_messages_suffix msgs counter max_tokens :
  trim_messages msgs counter max_tokens `suffix_of` msgs.
Proof. apply trim_remainder_suffix. Qed.







Lemma estimate_messages_tokens_sum (msgs : list BaseMessage) :
  estimate_messages_tokens msgs = foldr (fun m acc => estimate_tokens m + acc) 0 msgs.
Proof. destruct msgs; reflexivity. Qed.

Lemma estimate_messages_tokens_cons (m : BaseMessage) (msgs : list BaseMessage) :
  estimate_messages_tokens (m :: msgs) = estimate_tokens m + estimate_messages_tokens msgs.
Proof. rewrite !estimate_messages_tokens_sum. reflexivity. Qed.




Lemma state_modifier_unfold (state : AgentState) (model : option BaseChatModel)
    (max_input_tokens : Z) :
  state_modifier state model max_input_tokens
  = anthropic_trim_messages (messages state)
      (create_token_counter_wrapper (get_model_name_from_chat_model model))
      max_input_tokens 2.
Proof. unfold state_modifier. destruct (messages state); reflexivity. Qed.

Lemma sonnet_35_state_modifier_cons (state : AgentState) (max_input_tokens : Z)
    (first_message : BaseMessage) (remaining_messages : list BaseMessage) :
  messages state = first_message :: remaining_messages ->
  sonnet_35_state_modifier state max_input_tokens
  = first_message ::
      trim_messages remaining_messages estimate_messages_tokens
        (max_input_tokens - estimate_tokens first_message).
Proof.
  intros Hmsgs. unfold sonnet_35_state_modifier. rewrite Hmsgs. simpl.
  rewrite Z.add_0_r. reflexivity.
Qed.

Lemma prefix_suffix_length (msgs out s : list BaseMessage) (n : nat) :
  s `suffix_of` drop n msgs -> out = take n msgs ++ s ->
  (length out <= length msgs)%nat.
Proof.
  intros Hs ->. apply suffix_length in Hs.
  pose proof (f_equal length (take_drop n msgs)) as Hlen.
  rewrite length_app in *. lia.
Qed.

(** C2. For every non-empty message list, every token counter and every
    budget, the output of [state_modifier] (of
    [sonnet_35_state_modifier]) is no longer than the input, and it is the
    first two messages (the first message) followed by a contiguous suffix
    of the remaining input messages, in the original order. *)
Theorem trimmed_is_prefix_then_suffix (state : AgentState)
    (model : option BaseChatModel) (max_tokens : Z) :
  messages state <> [] ->
  ((length (state_modifier state model max_tokens) <= length (messages state))%nat /\
   exists s : list BaseMessage,
     s `suffix_of` drop 2 (messages state) /\
     state_modifier state model max_tokens = take 2 (messages state) ++ s) /\
  ((length (sonnet_35_state_modifier state max_tokens) <= length (messages state))%nat /\
   exists s : list BaseMessage,
     s `suffix_of` drop 1 (messages state) /\
     sonnet_35_state_modifier state max_tokens = take 1 (messages state) ++ s).
Proof.
  intros Hne. split.
  - rewrite state_modifier_unfold.
    destruct (anthropic_trim_messages_shape (messages state)
                (create_token_counter_wrapper (get_model_name_from_chat_model model))
                max_tokens 2) as [s [Hs Hout]].
    split; [eapply prefix_suffix_length; eassumption | exists s; split; assumption].
  - destruct (messages state) as [|first_message remaining_messages] eqn:Hmsgs;
      [congruence|].
    rewrite (sonnet_35_state_modifier_cons _ _ _ _ Hmsgs).
    pose proof (trim_messages_suffix remaining_messages estimate_messages_tokens
                  (max_tokens - estimate_tokens first_message)) as Hs.
    split.
    + apply suffix_length in Hs. simpl. lia.
    + eexists. split; [|reflexivity]. simpl. rewrite drop_0. exact Hs.
Qed.

(** C7. If the token cost of the mandatory prefix alone meets or exceeds
    the budget, trimming raises nothing and returns exactly the mandatory
    prefix, with no further message: [state_modifier] returns the first
    two messages, and [sonnet_35_state_modifier] returns exactly
    [[first_message]] whenever the estimated tokens of the first message
    are at least [max_input_tokens]. *)
Theorem prefix_over_budget_keeps_prefix_only :
  (forall (state : AgentState) (model : option BaseChatModel) (max_tokens : Z),
      max_tokens
      <= create_token_counter_wrapper (get_model_name_from_chat_model model)
           (take 2 (messages state)) ->
      state_modifier state model max_tokens = take 2 (messages state)) /\
  (forall (first_message : BaseMessage) (remaining_messages : list BaseMessage)
          (max_input_tokens : Z),
      max_input_tokens <= estimate_messages_tokens [first_message] ->
      sonnet_35_state_modifier {| messages := first_message :: remaining_messages |}
        max_input_tokens
      = [first_message]).
Proof.
  split.
  - intros state model max_tokens Hmeets. rewrite state_modifier_unfold.
    destruct (messages state) as [|m0 rest]; [reflexivity|].
    unfold anthropic_trim_messages. cbv zeta.
    rewrite trim_remainder_none by exact Hmeets. apply app_nil_r.
  - intros first_message remaining_messages max_input_tokens Hmeets.
    rewrite (sonnet_35_state_modifier_cons _ _ first_message remaining_messages)
      by reflexivity.
    unfold trim_messages. rewrite trim_remainder_none; [reflexivity|].
    cbn [estimate_messages_tokens foldr] in *. lia.
Qed.

(** Whatever the estimator, a message of no cost behind a first message
    that alone meets the budget is dropped although the whole history is
    within the budget. *)
Lemma free_remainder_is_emptied (first_message free : BaseMessage) :
  estimate_tokens free = 0 ->
  estimate_messages_tokens [first_message; free] <= estimate_tokens first_message /\
  sonnet_35_state_modifier {| messages := [first_message; free] |}
    (estimate_tokens first_message)
  = [first_message].
Proof.
  intros Hfree. split.
  - cbn [estimate_messages_tokens foldr]. lia.
  - rewrite (sonnet_35_state_modifier_cons _ _ first_message [free]) by reflexivity.
    unfold trim_messages. rewrite trim_remainder_none; [reflexivity|].
    cbn [estimate_messages_tokens]. lia.
Qed.


(** ** Provider and model of an agent type *)

Lemma py_or_truthy (a b : PyVal) : truthy a = true -> py_or a b = a.
Proof. intros H. unfold py_or. rewrite H. reflexivity. Qed.

Lemma py_or_falsy (a b : PyVal) : truthy a = false -> py_or a b = b.
Proof. intros H. unfold py_or. rewrite H. reflexivity. Qed.

Lemma py_or_get (config : gmap string PyVal) (key : string) (b : PyVal) :
  (forall v, config !! key = Some v -> truthy v = true ->
             py_or (dict_get config key (VStr "")) b = v) /\
  (config !! key = None \/ (exists v, config !! key = Some v /\ truthy v = false) ->
   py_or (dict_get config key (VStr "")) b = b).
Proof.
  unfold dict_get. split.
  - intros v -> Hv. simpl. apply py_or_truthy, Hv.
  - intros [-> | [v [-> Hv]]]; simpl; apply py_or_falsy; [reflexivity | exact Hv].
Qed.

(** C4. For every configuration, the provider and the model name of the
    roles "research" and "planner" come from the role's own keys when
    these are present and non-empty (truthy), and from the generic keys
    otherwise; every other agent type reads the generic keys.  With
    [{research_model: "m1", model: "m2"}], "research" gives "m1" and
    "default" gives "m2". *)
Theorem role_keys_take_precedence (config : gmap string PyVal) :
  (forall agent_type : string,
      agent_type = "research" \/ agent_type = "planner" ->
      let resolved := get_provider_and_model_for_agent_type config agent_type in
      (forall v, config !! (agent_type +:+ "_provider") = Some v -> truthy v = true ->
                 resolved.1 = v) /\
      (config !! (agent_type +:+ "_provider") = None \/
       (exists v, config !! (agent_type +:+ "_provider") = Some v /\ truthy v = false) ->
       resolved.1 = dict_get config "provider" (VStr "")) /\
      (forall v, config !! (agent_type +:+ "_model") = Some v -> truthy v = true ->
                 resolved.2 = v) /\
      (config !! (agent_type +:+ "_model") = None \/
       (exists v, config !! (agent_type +:+ "_model") = Some v /\ truthy v = false) ->
       resolved.2 = dict_get config "model" (VStr ""))) /\
  (forall agent_type : string,
      agent_type <> "research" -> agent_type <> "planner" ->
      get_provider_and_model_for_agent_type config agent_type
      = (dict_get config "provider" (VStr ""), dict_get config "model" (VStr ""))) /\
  (config = {[ "research_model" := VStr "m1"; "model" := VStr "m2" ]} ->
   (get_provider_and_model_for_agent_type config "research").2 = VStr "m1" /\
   (get_provider_and_model_for_agent_type config "default").2 = VStr "m2").
Proof.
  split; [|split].
  - intros agent_type [-> | ->]; cbn -[dict_get py_or];
      repeat split; apply py_or_get.
  - intros agent_type Hres Hplan. unfold get_provider_and_model_for_agent_type.
    destruct (String.eqb_spec agent_type "research"); [contradiction|].
    destruct (String.eqb_spec agent_type "planner"); [contradiction|].
    reflexivity.
  - intros ->. split; vm_compute; reflexivity.
Qed.

(** ** The Claude 3.7 adjustment *)

Lemma adjust_applies (limit out_budget : Z) (m : BaseChatModel) (id : string) :
  limit <> 0 ->
  model_attr m = Some id -> is_claude_37 id = true ->
  max_tokens_attr m = Some (Some out_budget) -> out_budget <> 0 ->
  adjust_claude_37_token_limit (Some limit) (Some m) = Some (limit - out_budget).
Proof.
  intros Hlimit Hid H37 Hmax Hbudget.
  unfold adjust_claude_37_token_limit, is_claude_37_handle, truthy_int.
  rewrite Hid, H37. simpl. rewrite Hmax.
  destruct (Z.eqb_spec limit 0); [contradiction|].
  destruct (Z.eqb_spec out_budget 0); [contradiction|].
  reflexivity.
Qed.

Lemma adjust_cases (limit : Z) (model : option BaseChatModel) :
  adjust_claude_37_token_limit (Some limit) model = Some limit \/
  exists out_budget : Z,
    model ≫= max_tokens_attr = Some (Some out_budget) /\ out_budget <> 0 /\
    adjust_claude_37_token_limit (Some limit) model = Some (limit - out_budget).
Proof.
  unfold adjust_claude_37_token_limit, truthy_int.
  destruct (Z.eqb_spec limit 0); simpl; [left; reflexivity|].
  destruct (is_claude_37_handle model); [|left; reflexivity].
  destruct (model ≫= max_tokens_attr) as [[out_budget|]|]; try (left; reflexivity).
  destruct (Z.eqb_spec out_budget 0); simpl; [left; reflexivity|].
  right. exists out_budget. repeat split; first [assumption | reflexivity].
Qed.

(** C3. For a truthy [max_input_tokens] and a live handle whose
    identifier is in the Claude 3.7 family and whose [max_tokens] is
    truthy, the adjustment returns [max_input_tokens - max_tokens]; a
    falsy [max_input_tokens] (zero or None) is returned unchanged. *)
Theorem adjust_subtracts_output_budget :
  (forall (limit out_budget : Z) (m : BaseChatModel) (id : string),
      limit <> 0 ->
      model_attr m = Some id -> is_claude_37 id = true ->
      max_tokens_attr m = Some (Some out_budget) -> out_budget <> 0 ->
      adjust_claude_37_token_limit (Some limit) (Some m) = Some (limit - out_budget)) /\
  (forall model, adjust_claude_37_token_limit (Some 0) model = Some 0) /\
  (forall model, adjust_claude_37_token_limit None model = None).
Proof.
  split; [exact adjust_applies | split; intros model; reflexivity].
Qed.

(** C10, as amended. When the handle's [max_tokens] is not negative, the
    adjustment never returns a value greater than [max_input_tokens] (and
    returns None exactly for None); when the adjustment applies (Claude
    3.7 handle, truthy [max_tokens]) and [max_tokens] is at least
    [max_input_tokens], the result is [max_input_tokens - max_tokens] (or
    the untouched zero), which is zero or negative: it is not clamped. *)
Theorem adjust_never_raises_the_limit :
  (forall (limit : Z) (model : option BaseChatModel),
      (forall out_budget, model ≫= max_tokens_attr = Some (Some out_budget) ->
                          0 <= out_budget) ->
      exists adjusted : Z,
        adjust_claude_37_token_limit (Some limit) model = Some adjusted /\
        adjusted <= limit) /\
  (forall model, adjust_claude_37_token_limit None model = None) /\
  (forall (limit out_budget : Z) (m : BaseChatModel) (id : string),
      model_attr m = Some id -> is_claude_37 id = true ->
      max_tokens_attr m = Some (Some out_budget) -> out_budget <> 0 ->
      limit <= out_budget ->
      exists adjusted : Z,
        adjust_claude_37_token_limit (Some limit) (Some m) = Some adjusted /\
        adjusted <= 0 /\
        (limit <> 0 -> adjusted = limit - out_budget)).
Proof.
  split; [|split].
  - intros limit model Hnonneg.
    destruct (adjust_cases limit model) as [-> | [out_budget [Hmax [_ ->]]]].
    + exists limit. split; [reflexivity | lia].
    + exists (limit - out_budget). split; [reflexivity|].
      specialize (Hnonneg _ Hmax). lia.
  - reflexivity.
  - intros limit out_budget m id Hid H37 Hmax Hbudget Hle.
    destruct (Z.eq_dec limit 0) as [-> | Hlimit].
    + exists 0. repeat split; [lia | congruence].
    + exists (limit - out_budget).
      rewrite (adjust_applies limit out_budget m id) by assumption.
      repeat split; lia.
Qed.

(** ** Limit resolution *)

Lemma replace_hyphen_filter (s : string) :
  String.list_ascii_of_string (replace_hyphen s)
  = List.filter (fun c => negb (Ascii.eqb c "-"%char)) (String.list_ascii_of_string s).
Proof.
  induction s as [|c rest IH]; simpl; [reflexivity|].
  destruct (Ascii.eqb c "-"%char); simpl; [exact IH | rewrite IH; reflexivity].
Qed.

Lemma litellm_limit_raise (pm : PyVal) (model : option BaseChatModel) (e : exception) :
  get_model_info pm = Raise e -> litellm_limit pm model = Ok None.
Proof. intros H. unfold litellm_limit. rewrite H. reflexivity. Qed.

Lemma litellm_limit_falsy (pm : PyVal) (model : option BaseChatModel)
    (info : gmap string (option Z)) :
  get_model_info pm = Ok info ->
  truthy_int (dict_get info "max_input_tokens" None) = false ->
  litellm_limit pm model = Ok None.
Proof.
  intros Hinfo Hfalsy. unfold litellm_limit. rewrite Hinfo. simpl.
  unfold_bind. rewrite Hfalsy. reflexivity.
Qed.

Lemma litellm_limit_truthy (pm : PyVal) (model : option BaseChatModel)
    (info : gmap string (option Z)) :
  get_model_info pm = Ok info ->
  truthy_int (dict_get info "max_input_tokens" None) = true ->
  litellm_limit pm model
  = Ok (Some (adjust_claude_37_token_limit (dict_get info "max_input_tokens" None) model)).
Proof.
  intros Hinfo Htruthy. unfold litellm_limit. rewrite Hinfo. simpl.
  unfold_bind. rewrite Htruthy. reflexivity.
Qed.

Lemma litellm_limit_returns (pm : PyVal) (model : option BaseChatModel) :
  exists returned, litellm_limit pm model = Ok returned.
Proof.
  unfold litellm_limit, try_except_Exception. unfold_bind.
  destruct (get_model_info pm) as [info|e]; [|eexists; reflexivity].
  destruct (truthy_int _); eexists; reflexivity.
Qed.

(** What the function returns once the litellm step fell through. *)
Lemma get_model_token_limit_fallback (config cfg : gmap string PyVal)
    (agent_type : string) (model : option BaseChatModel) (provider model_name : PyVal) :
  effective_config config = Ok cfg ->
  get_provider_and_model_for_agent_type cfg agent_type = (provider, model_name) ->
  litellm_limit (provider_model provider model_name) model = Ok None ->
  get_model_token_limit config agent_type model
  = match fallback_limit provider model_name with
    | Ok limit => Ok (adjust_claude_37_token_limit limit model)
    | Raise _ => Ok None
    end.
Proof.
  intros Hcfg Hpm Hlite. unfold get_model_token_limit, resolve_limit.
  rewrite Hcfg. simpl. unfold_bind. rewrite Hpm, Hlite.
  destruct (fallback_limit provider model_name); reflexivity.
Qed.

Lemma get_model_token_limit_litellm (config cfg : gmap string PyVal)
    (agent_type : string) (model : option BaseChatModel) (provider model_name : PyVal)
    (limit : option Z) :
  effective_config config = Ok cfg ->
  get_provider_and_model_for_agent_type cfg agent_type = (provider, model_name) ->
  litellm_limit (provider_model provider model_name) model = Ok (Some limit) ->
  get_model_token_limit config agent_type model = Ok limit.
Proof.
  intros Hcfg Hpm Hlite. unfold get_model_token_limit, resolve_limit.
  rewrite Hcfg. simpl. unfold_bind. rewrite Hpm, Hlite.
  reflexivity.
Qed.

Lemma resolve_limit_config_error (config : gmap string PyVal) (agent_type : string)
    (model : option BaseChatModel) (e : exception) :
  get_all = Raise e -> isinstance_RuntimeError e = false ->
  resolve_limit config agent_type model = Raise e.
Proof.
  intros Hall Hcls. unfold resolve_limit, effective_config, try_except_RuntimeError.
  rewrite Hall, Hcls. reflexivity.
Qed.

(** C1. For every configuration, agent type and optional model handle,
    [get_model_token_limit] returns a value (an int or None) and raises
    nothing; whenever an exception escapes the resolution (for one, when
    reading the configuration raises anything but a [RuntimeError]) the
    function returns None. *)
Theorem get_model_token_limit_never_raises (config : gmap string PyVal)
    (agent_type : string) (model : option BaseChatModel) :
  (exists limit : option Z, get_model_token_limit config agent_type model = Ok limit) /\
  (forall e, resolve_limit config agent_type model = Raise e ->
             get_model_token_limit config agent_type model = Ok None) /\
  (forall e, get_all = Raise e -> isinstance_RuntimeError e = false ->
             get_model_token_limit config agent_type model = Ok None).
Proof.
  assert (Hescape : forall e, resolve_limit config agent_type model = Raise e ->
                              get_model_token_limit config agent_type model = Ok None).
  { intros e He. unfold get_model_token_limit. rewrite He. reflexivity. }
  split; [|split].
  - unfold get_model_token_limit, try_except_Exception.
    destruct (resolve_limit config agent_type model) as [limit|e];
      eexists; reflexivity.
  - exact Hescape.
  - intros e Hall Hcls. apply (Hescape e).
    apply resolve_limit_config_error; assumption.
Qed.

(** C5. On the fallback path the model name loses all its hyphens before
    it is looked up in the table, under the provider and then under the
    normalized name ("claude-2" becomes "claude2"); the limit of the row
    found is used, and when the provider or the normalized name has no
    row the limit is None. *)
Theorem fallback_lookup_normalizes_name (config cfg : gmap string PyVal)
    (agent_type : string) (model : option BaseChatModel) (provider name : string) :
  effective_config config = Ok cfg ->
  get_provider_and_model_for_agent_type cfg agent_type = (VStr provider, VStr name) ->
  litellm_limit (provider_model (VStr provider) (VStr name)) model = Ok None ->
  (forall (rows : gmap string (gmap string Z)) (row : gmap string Z) (limit : Z),
      models_params !! provider = Some rows ->
      rows !! replace_hyphen name = Some row ->
      row !! "token_limit" = Some limit ->
      get_model_token_limit config agent_type model
      = Ok (adjust_claude_37_token_limit (Some limit) model)) /\
  (models_params !! provider = None ->
   get_model_token_limit config agent_type model = Ok None) /\
  (forall rows : gmap string (gmap string Z),
      models_params !! provider = Some rows ->
      rows !! replace_hyphen name = None ->
      get_model_token_limit config agent_type model = Ok None) /\
  replace_hyphen "claude-2" = "claude2".
Proof.
  intros Hcfg Hpm Hlite.
  pose proof (get_model_token_limit_fallback _ _ _ _ _ _ Hcfg Hpm Hlite) as Hfb.
  unfold fallback_limit, dict_get in Hfb. simpl in Hfb.
  unfold_bind in Hfb.
  split; [|split; [|split]].
  - intros rows row limit Hrows Hrow Hlimit.
    rewrite Hrows in Hfb. simpl in Hfb. rewrite Hrow, Hlimit in Hfb. exact Hfb.
  - intros Hnone. rewrite Hnone in Hfb. simpl in Hfb.
    rewrite lookup_empty in Hfb. exact Hfb.
  - intros rows Hrows Hnone. rewrite Hrows in Hfb. simpl in Hfb.
    rewrite Hnone in Hfb. exact Hfb.
  - reflexivity.
Qed.

(** C6. When the metadata provider raises, or returns a record whose
    [max_input_tokens] is missing or falsy, nothing is propagated and the
    result is that of the fallback-table lookup; a truthy value is
    returned, adjusted, whatever the fallback table holds. *)
Theorem metadata_failure_falls_back (config cfg : gmap string PyVal)
    (agent_type : string) (model : option BaseChatModel) (provider model_name : PyVal) :
  effective_config config = Ok cfg ->
  get_provider_and_model_for_agent_type cfg agent_type = (provider, model_name) ->
  let fallback :=
    match fallback_limit provider model_name with
    | Ok limit => Ok (adjust_claude_37_token_limit limit model)
    | Raise _ => Ok None
    end in
  (forall e, get_model_info (provider_model provider model_name) = Raise e ->
             get_model_token_limit config agent_type model = fallback) /\
  (forall info, get_model_info (provider_model provider model_name) = Ok info ->
                truthy_int (dict_get info "max_input_tokens" None) = false ->
                get_model_token_limit config agent_type model = fallback) /\
  (forall info, get_model_info (provider_model provider model_name) = Ok info ->
                truthy_int (dict_get info "max_input_tokens" None) = true ->
                get_model_token_limit config agent_type model
                = Ok (adjust_claude_37_token_limit
                        (dict_get info "max_input_tokens" None) model)).
Proof.
  intros Hcfg Hpm fallback. split; [|split].
  - intros e He. eapply get_model_token_limit_fallback; [eassumption..|].
    eapply litellm_limit_raise, He.
  - intros info Hinfo Hfalsy. eapply get_model_token_limit_fallback; [eassumption..|].
    eapply litellm_limit_falsy; eassumption.
  - intros info Hinfo Htruthy. eapply get_model_token_limit_litellm; [eassumption..|].
    eapply litellm_limit_truthy; eassumption.
Qed.

(** ** Further properties of the token limiter *)


Lemma dict_get_agree {V : Type} (c1 c2 : gmap string V) (key : string) (dflt : V) :
  c1 !! key = c2 !! key -> dict_get c1 key dflt = dict_get c2 key dflt.
Proof. unfold dict_get. intros ->. reflexivity. Qed.

Lemma provider_and_model_agree (c1 c2 : gmap string PyVal) (agent_type : string) :
  (forall key, key ∈ keys_read agent_type -> c1 !! key = c2 !! key) ->
  get_provider_and_model_for_agent_type c1 agent_type
  = get_provider_and_model_for_agent_type c2 agent_type.
Proof.
  unfold keys_read, get_provider_and_model_for_agent_type. intros Hagree.
  destruct (String.eqb agent_type "research");
    [|destruct (String.eqb agent_type "planner")];
    repeat match goal with
           | |- context [dict_get c1 ?k ?d] =>
               rewrite (dict_get_agree c1 c2 k d) by (apply Hagree; repeat constructor)
           end;
    reflexivity.
Qed.

(** X2. The provider and the model name depend on the configuration only
    through the keys read for the agent type: two configurations that
    agree on them resolve alike, whatever else they hold (a research agent
    is not affected by the planner's keys, nor the default agent by
    either); in particular, setting or removing any other key changes
    nothing. *)
Theorem provider_and_model_depend_on_keys_read (c1 c2 : gmap string PyVal)
    (agent_type : string) :
  (forall key, key ∈ keys_read agent_type -> c1 !! key = c2 !! key) ->
  get_provider_and_model_for_agent_type c1 agent_type
  = get_provider_and_model_for_agent_type c2 agent_type /\
  (forall (other : string) (v : PyVal),
      other ∉ keys_read agent_type ->
      get_provider_and_model_for_agent_type (<[other := v]> c1) agent_type
      = get_provider_and_model_for_agent_type c2 agent_type /\
      get_provider_and_model_for_agent_type (delete other c1) agent_type
      = get_provider_and_model_for_agent_type c2 agent_type).
Proof.
  intros Hagree. split; [apply provider_and_model_agree, Hagree|].
  intros other v Hother. split; apply provider_and_model_agree; intros key Hkey.
  - rewrite lookup_insert_ne by (intros ->; contradiction). apply Hagree, Hkey.
  - rewrite lookup_delete_ne by (intros ->; contradiction). apply Hagree, Hkey.
Qed.

(** X3. When none of the keys read for the agent type is present, the
    provider and the model name are both the empty string, the identifier
    sent to litellm is the empty string (no stray slash), and if litellm
    then fails and the table has no row for the empty provider the limit is
    None. *)
Theorem unconfigured_resolves_to_empty_names (config cfg : gmap string PyVal)
    (agent_type : string) (model : option BaseChatModel) :
  effective_config config = Ok cfg ->
  (forall key, key ∈ keys_read agent_type -> cfg !! key = None) ->
  get_provider_and_model_for_agent_type cfg agent_type = (VStr "", VStr "") /\
  provider_model (get_provider_and_model_for_agent_type cfg agent_type).1
    (get_provider_and_model_for_agent_type cfg agent_type).2 = VStr "" /\
  (forall e, get_model_info (VStr "") = Raise e ->
             models_params !! "" = None ->
             get_model_token_limit config agent_type model = Ok None).
Proof.
  intros Hcfg Hnone.
  assert (Hres : get_provider_and_model_for_agent_type cfg agent_type
                 = (VStr "", VStr "")).
  { rewrite (provider_and_model_agree cfg ∅ agent_type).
    - unfold get_provider_and_model_for_agent_type.
      destruct (String.eqb agent_type "research");
        [|destruct (String.eqb agent_type "planner")]; reflexivity.
    - intros key Hkey. rewrite lookup_empty. apply Hnone, Hkey. }
  split; [exact Hres|]. rewrite Hres. split; [reflexivity|].
  intros e He Htable.
  rewrite (get_model_token_limit_fallback config cfg agent_type model
             (VStr "") (VStr "") Hcfg Hres).
  - unfold fallback_limit, dict_get. simpl. unfold_bind.
    rewrite Htable. simpl. rewrite lookup_empty. reflexivity.
  - apply (litellm_limit_raise _ _ e). exact He.
Qed.

Lemma replace_hyphen_app (a b : string) :
  replace_hyphen (a +:+ b) = replace_hyphen a +:+ replace_hyphen b.
Proof.
  induction a as [|c a IH]; simpl; [reflexivity|].
  destruct (Ascii.eqb c "-"%char); simpl; rewrite IH; reflexivity.
Qed.

Lemma has_hyphen_replace_hyphen (s : string) : has_hyphen (replace_hyphen s) = false.
Proof.
  induction s as [|c s IH]; simpl; [reflexivity|].
  destruct (Ascii.eqb c "-"%char) eqn:Hc; simpl; [exact IH|].
  rewrite Hc, IH. reflexivity.
Qed.

Lemma replace_hyphen_without_hyphen (s : string) :
  has_hyphen s = false -> replace_hyphen s = s.
Proof.
  induction s as [|c s IH]; simpl; [reflexivity|].
  destruct (Ascii.eqb c "-"%char); simpl; [discriminate|].
  intros Hs. rewrite IH by exact Hs. reflexivity.
Qed.

Lemma replace_hyphen_idempotent (s : string) :
  replace_hyphen (replace_hyphen s) = replace_hyphen s.
Proof. apply replace_hyphen_without_hyphen, has_hyphen_replace_hyphen. Qed.

(** X4. Hyphens in the requested model name never matter to the fallback
    lookup: a name with a hyphen put in anywhere, and the normalized name
    itself, give the same outcome as the name. *)
Theorem fallback_limit_ignores_hyphens (provider : PyVal) :
  (forall a b : string,
      fallback_limit provider (VStr (a +:+ "-" +:+ b))
      = fallback_limit provider (VStr (a +:+ b))) /\
  (forall name : string,
      fallback_limit provider (VStr (replace_hyphen name))
      = fallback_limit provider (VStr name)).
Proof.
  split.
  - intros a b. unfold fallback_limit.
    rewrite !replace_hyphen_app. reflexivity.
  - intros name. unfold fallback_limit.
    rewrite replace_hyphen_idempotent. reflexivity.
Qed.

(** X5. On the fallback path two defects of the inputs end in None, not
    in an exception: a model name that is not a string (such as None),
    on which [replace] does not exist, and a table row that has no
    ["token_limit"]. *)
Theorem fallback_errors_give_none (config cfg : gmap string PyVal)
    (agent_type : string) (model : option BaseChatModel) (provider model_name : PyVal) :
  effective_config config = Ok cfg ->
  get_provider_and_model_for_agent_type cfg agent_type = (provider, model_name) ->
  litellm_limit (provider_model provider model_name) model = Ok None ->
  ((forall s, model_name <> VStr s) ->
   fallback_limit provider model_name = Raise AttributeError /\
   get_model_token_limit config agent_type model = Ok None) /\
  (forall (p name : string) (rows : gmap string (gmap string Z)) (row : gmap string Z),
      provider = VStr p -> model_name = VStr name ->
      models_params !! p = Some rows ->
      rows !! replace_hyphen name = Some row ->
      row !! "token_limit" = None ->
      fallback_limit provider model_name = Raise KeyError /\
      get_model_token_limit config agent_type model = Ok None).
Proof.
  intros Hcfg Hpm Hlite.
  pose proof (get_model_token_limit_fallback _ _ _ _ _ _ Hcfg Hpm Hlite) as Hfb.
  split.
  - intros Hnostr.
    assert (Hraise : fallback_limit provider model_name = Raise AttributeError).
    { unfold fallback_limit. destruct model_name as [|b|z|s]; try reflexivity.
      exfalso. apply (Hnostr s). reflexivity. }
    split; [exact Hraise | rewrite Hraise in Hfb; exact Hfb].
  - intros p name rows row -> -> Hrows Hrow Hlimit.
    assert (Hraise : fallback_limit (VStr p) (VStr name) = Raise KeyError).
    { unfold fallback_limit, dict_get. simpl. unfold_bind.
      rewrite Hrows. simpl. rewrite Hrow, Hlimit. reflexivity. }
    split; [exact Hraise | rewrite Hraise in Hfb; exact Hfb].
Qed.

(** X6. When the configuration repository can be read, the [config]
    argument is not used at all: every caller-supplied configuration
    gives the same limit. *)
Theorem live_configuration_overrides_argument (cfg c1 c2 : gmap string PyVal)
    (agent_type : string) (model : option BaseChatModel) :
  get_all = Ok cfg ->
  get_model_token_limit c1 agent_type model = get_model_token_limit c2 agent_type model.
Proof.
  intros Hall. unfold get_model_token_limit, resolve_limit, effective_config.
  rewrite Hall. reflexivity.
Qed.

(** X7. The adjustment changes a limit only for a truthy limit and a live
    handle of the Claude 3.7 family with a truthy [max_tokens]; in every
    other case (no handle, another model, no or falsy [max_tokens], a
    falsy limit) its result is its argument. *)
Theorem adjust_changes_only_claude_37_limits (max_input_tokens : option Z)
    (model : option BaseChatModel) :
  adjust_claude_37_token_limit max_input_tokens model <> max_input_tokens ->
  exists (limit out_budget : Z) (m : BaseChatModel) (id : string),
    max_input_tokens = Some limit /\ limit <> 0 /\
    model = Some m /\ model_attr m = Some id /\ is_claude_37 id = true /\
    max_tokens_attr m = Some (Some out_budget) /\ out_budget <> 0 /\
    adjust_claude_37_token_limit max_input_tokens model = Some (limit - out_budget).
Proof.
  unfold adjust_claude_37_token_limit, is_claude_37_handle, truthy_int.
  destruct max_input_tokens as [limit|]; [|congruence].
  destruct (Z.eqb_spec limit 0) as [|Hlimit]; simpl; [congruence|].
  destruct model as [m|]; [|congruence]. simpl.
  destruct (model_attr m) as [id|] eqn:Hid; [|congruence].
  destruct (is_claude_37 id) eqn:H37; [|congruence].
  destruct (max_tokens_attr m) as [[out_budget|]|] eqn:Hmax; try congruence.
  destruct (Z.eqb_spec out_budget 0) as [|Hbudget]; simpl; [congruence|].
  intros _. exists limit, out_budget, m, id. repeat split; assumption.
Qed.

Lemma accumulate_last_dropped counter max_tokens kept remaining :
  accumulate_last counter max_tokens kept (reverse remaining) [] <> remaining ->
  exists (before : list BaseMessage) (m : BaseMessage),
    remaining
    = before ++ m :: accumulate_last counter max_tokens kept (reverse remaining) [] /\
    max_tokens
    < counter (kept ++ m :: accumulate_last counter max_tokens kept (reverse remaining) []).
Proof.
  destruct (accumulate_last_stops_at counter max_tokens kept (reverse remaining) [])
    as [taken [older [Hsplit [Hres Hstop]]]].
  rewrite Hres, app_nil_r in *. intros Hne.
  apply (f_equal reverse) in Hsplit. rewrite reverse_involutive, reverse_app in Hsplit.
  destruct older as [|m rest].
  - exfalso. apply Hne. rewrite Hsplit. reflexivity.
  - exists (reverse rest), m. split; [|exact Hstop].
    rewrite Hsplit, reverse_cons, <- app_assoc. reflexivity.
Qed.

(** X8. Whenever trimming keeps a message beyond the mandatory prefix,
    the whole output fits the budget, by the counter in use: the output of
    [state_modifier] by the service counter, the output of
    [sonnet_35_state_modifier] by the local estimate. *)
Theorem trimmed_history_fits_budget (state : AgentState)
    (model : option BaseChatModel) (max_tokens : Z) :
  (state_modifier state model max_tokens <> take 2 (messages state) ->
   create_token_counter_wrapper (get_model_name_from_chat_model model)
     (state_modifier state model max_tokens) <= max_tokens) /\
  (sonnet_35_state_modifier state max_tokens <> take 1 (messages state) ->
   estimate_messages_tokens (sonnet_35_state_modifier state max_tokens) <= max_tokens).
Proof.
  split.
  - rewrite state_modifier_unfold.
    set (counter := create_token_counter_wrapper (get_model_name_from_chat_model model)).
    destruct (messages state) as [|m0 rest]; [intros Hne; exfalso; apply Hne; reflexivity|].
    set (msgs := m0 :: rest). unfold anthropic_trim_messages. fold msgs.
    cbv beta iota zeta. intros Hne.
    apply trim_remainder_within.
    intros Hnil. apply Hne. rewrite Hnil, app_nil_r. reflexivity.
  - destruct (messages state) as [|first_message remaining_messages] eqn:Hmsgs.
    + unfold sonnet_35_state_modifier. rewrite Hmsgs. intros Hne. exfalso.
      apply Hne. reflexivity.
    + rewrite (sonnet_35_state_modifier_cons _ _ _ _ Hmsgs).
      change (take 1 (first_message :: remaining_messages)) with [first_message].
      intros Hne. rewrite estimate_messages_tokens_cons.
      pose proof (trim_remainder_within estimate_messages_tokens
                    (max_tokens - estimate_tokens first_message) []
                    remaining_messages) as Hfit.
      cbn [app] in Hfit. unfold trim_messages in *.
      assert (estimate_messages_tokens
                (trim_remainder estimate_messages_tokens
                   (max_tokens - estimate_tokens first_message) []
                   remaining_messages)
              <= max_tokens - estimate_tokens first_message).
      { apply Hfit. intros Hnil. apply Hne. rewrite Hnil. reflexivity. }
      lia.
Qed.

Lemma trim_remainder_dropped counter max_tokens kept remaining :
  trim_remainder counter max_tokens kept remaining <> remaining ->
  (max_tokens <= counter kept /\
   trim_remainder counter max_tokens kept remaining = []) \/
  exists (before : list BaseMessage) (m : BaseMessage),
    remaining = before ++ m :: trim_remainder counter max_tokens kept remaining /\
    max_tokens < counter (kept ++ m :: trim_remainder counter max_tokens kept remaining).
Proof.
  unfold trim_remainder.
  destruct (Z.leb_spec max_tokens (counter kept)) as [Hmeets|Hbelow]; intros Hne.
  - left. split; [exact Hmeets | reflexivity].
  - right. apply accumulate_last_dropped, Hne.
Qed.

(** X9. Trimming drops messages for two reasons only: the mandatory
    prefix alone meets or exceeds the budget, and then nothing else is
    kept, or an overflow: the input is the prefix, some older messages, a
    message [m] and the kept suffix, and the prefix with [m] and the kept
    suffix exceeds the budget. *)
Theorem trimming_drops_only_what_overflows (state : AgentState)
    (model : option BaseChatModel) (max_tokens : Z) :
  (state_modifier state model max_tokens <> messages state ->
   (max_tokens
    <= create_token_counter_wrapper (get_model_name_from_chat_model model)
         (take 2 (messages state)) /\
    state_modifier state model max_tokens = take 2 (messages state)) \/
   exists (before kept : list BaseMessage) (m : BaseMessage),
     messages state = take 2 (messages state) ++ before ++ m :: kept /\
     state_modifier state model max_tokens = take 2 (messages state) ++ kept /\
     max_tokens
     < create_token_counter_wrapper (get_model_name_from_chat_model model)
         (take 2 (messages state) ++ m :: kept)) /\
  (sonnet_35_state_modifier state max_tokens <> messages state ->
   (max_tokens <= estimate_messages_tokens (take 1 (messages state)) /\
    sonnet_35_state_modifier state max_tokens = take 1 (messages state)) \/
   exists (first_message m : BaseMessage) (before kept : list BaseMessage),
     messages state = first_message :: before ++ m :: kept /\
     sonnet_35_state_modifier state max_tokens = first_message :: kept /\
     max_tokens < estimate_messages_tokens (first_message :: m :: kept)).
Proof.
  split.
  - rewrite state_modifier_unfold.
    set (counter := create_token_counter_wrapper (get_model_name_from_chat_model model)).
    destruct (messages state) as [|m0 rest]; [intros Hne; exfalso; apply Hne; reflexivity|].
    set (msgs := m0 :: rest). unfold anthropic_trim_messages. fold msgs.
    cbv beta iota zeta. intros Hne.
    destruct (trim_remainder_dropped counter max_tokens (take 2 msgs) (drop 2 msgs))
      as [[Hmeets Hnil] | [before [m [Hsplit Hover]]]].
    { intros Hall. apply Hne. rewrite Hall. apply take_drop. }
    + left. split; [exact Hmeets | rewrite Hnil; apply app_nil_r].
    + right.
      exists before, (trim_remainder counter max_tokens (take 2 msgs) (drop 2 msgs)), m.
      split; [|split; [reflexivity | exact Hover]].
      rewrite <- Hsplit. symmetry. apply take_drop.
  - destruct (messages state) as [|first_message remaining_messages] eqn:Hmsgs.
    + unfold sonnet_35_state_modifier. rewrite Hmsgs. intros Hne. exfalso.
      apply Hne. reflexivity.
    + rewrite (sonnet_35_state_modifier_cons _ _ _ _ Hmsgs). intros Hne.
      change (take 1 (first_message :: remaining_messages)) with [first_message].
      unfold trim_messages in *.
      destruct (trim_remainder_dropped estimate_messages_tokens
                  (max_tokens - estimate_tokens first_message) [] remaining_messages)
        as [[Hmeets Hnil] | [before [m [Hsplit Hover]]]].
      { intros Hall. apply Hne. rewrite Hall. reflexivity. }
      * left. rewrite Hnil. split; [|reflexivity].
        cbn [estimate_messages_tokens foldr] in *. lia.
      * right.
        exists first_message, m, before,
          (trim_remainder estimate_messages_tokens
             (max_tokens - estimate_tokens first_message) [] remaining_messages).
        split; [rewrite <- Hsplit; reflexivity|]. split; [reflexivity|].
        cbn [app] in Hover. rewrite estimate_messages_tokens_cons. lia.
Qed.

Lemma litellm_limit_inv (pm : PyVal) (model : option BaseChatModel)
    (adjusted : option Z) :
  litellm_limit pm model = Ok (Some adjusted) ->
  exists (info : gmap string (option Z)) (raw : Z),
    get_model_info pm = Ok info /\
    dict_get info "max_input_tokens" None = Some raw /\ raw <> 0 /\
    adjusted = adjust_claude_37_token_limit (Some raw) model.
Proof.
  unfold litellm_limit, try_except_Exception. unfold_bind.
  destruct (get_model_info pm) as [info|e]; [|discriminate].
  destruct (truthy_int (dict_get info "max_input_tokens" None)) eqn:Htruthy;
    [|discriminate].
  intros Hadj. injection Hadj as <-.
  destruct (dict_get info "max_input_tokens" None) as [raw|] eqn:Hraw;
    [|discriminate].
  exists info, raw. split; [reflexivity|]. split; [exact Hraw|].
  split; [|reflexivity]. intros ->. discriminate.
Qed.

Lemma fallback_limit_inv (provider model_name : PyVal) (raw : Z) :
  fallback_limit provider model_name = Ok (Some raw) ->
  exists (p name : string) (rows : gmap string (gmap string Z)) (row : gmap string Z),
    provider = VStr p /\ model_name = VStr name /\
    models_params !! p = Some rows /\
    rows !! replace_hyphen name = Some row /\
    row !! "token_limit" = Some raw.
Proof.
  unfold fallback_limit, dict_get. unfold_bind.
  destruct model_name as [|b|z|name]; try discriminate.
  destruct provider as [|b|z|p]; try (rewrite lookup_empty; discriminate).
  destruct (models_params !! p) as [rows|] eqn:Hrows; simpl;
    [|rewrite lookup_empty; discriminate].
  destruct (rows !! replace_hyphen name) as [row|] eqn:Hrow; [|discriminate].
  destruct (row !! "token_limit") as [found|] eqn:Hfound; [|discriminate].
  intros Hraw. injection Hraw as ->. exists p, name, rows, row.
  repeat split; first [assumption | reflexivity].
Qed.

(** X13. A limit that [get_model_token_limit] returns is never made up:
    it is the truthy [max_input_tokens] litellm reports for the composite
    identifier, or the ["token_limit"] of the table row under the provider
    and the normalized model name, passed through the Claude 3.7
    adjustment. *)
Theorem limit_comes_from_litellm_or_table (config : gmap string PyVal)
    (agent_type : string) (model : option BaseChatModel) (limit : Z) :
  get_model_token_limit config agent_type model = Ok (Some limit) ->
  exists (cfg : gmap string PyVal) (raw : Z),
    effective_config config = Ok cfg /\
    adjust_claude_37_token_limit (Some raw) model = Some limit /\
    ((exists info : gmap string (option Z),
         get_model_info
           (provider_model (get_provider_and_model_for_agent_type cfg agent_type).1
              (get_provider_and_model_for_agent_type cfg agent_type).2)
         = Ok info /\
         dict_get info "max_input_tokens" None = Some raw /\ raw <> 0) \/
     (exists (p name : string) (rows : gmap string (gmap string Z))
             (row : gmap string Z),
         get_provider_and_model_for_agent_type cfg agent_type = (VStr p, VStr name) /\
         models_params !! p = Some rows /\
         rows !! replace_hyphen name = Some row /\
         row !! "token_limit" = Some raw)).
Proof.
  intros Hlimit.
  destruct (effective_config config) as [cfg|e] eqn:Hcfg.
  2: { unfold get_model_token_limit, resolve_limit in Hlimit.
       rewrite Hcfg in Hlimit. discriminate. }
  destruct (get_provider_and_model_for_agent_type cfg agent_type)
    as [provider model_name] eqn:Hpm.
  destruct (litellm_limit_returns (provider_model provider model_name) model)
    as [[adjusted|] Hlite].
  - rewrite (get_model_token_limit_litellm _ _ _ _ _ _ _ Hcfg Hpm Hlite) in Hlimit.
    injection Hlimit as ->.
    destruct (litellm_limit_inv _ _ _ Hlite) as [info [raw [Hinfo [Hraw [Hnz Hadj]]]]].
    exists cfg, raw. rewrite Hpm.
    split; [reflexivity|]. split; [symmetry; exact Hadj|].
    left. exists info. split; [exact Hinfo | split; [exact Hraw | exact Hnz]].
  - rewrite (get_model_token_limit_fallback _ _ _ _ _ _ Hcfg Hpm Hlite) in Hlimit.
    destruct (fallback_limit provider model_name) as [[raw|]|e] eqn:Hfb;
      try discriminate.
    injection Hlimit as Hadj.
    destruct (fallback_limit_inv _ _ _ Hfb) as [p [name [rows [row H]]]].
    destruct H as [-> [-> [Hrows [Hrow Hraw]]]].
    exists cfg, raw. rewrite Hpm.
    split; [reflexivity|]. split; [exact Hadj|].
    right. exists p, name, rows, row. repeat split; assumption.
Qed.

End TokenLimiter.

(** ** The configuration snapshot *)

(** C9, as amended. When reading the live configuration raises a
    [RuntimeError] (no active session), the caller's configuration is
    used and the resolution goes on as if the repository had returned it;
    an exception of any other class raised there reaches the outer
    handler, and the function returns None. *)
Theorem config_runtime_error_falls_back (is_claude_37 : string -> bool)
    (get_model_info : PyVal -> result (gmap string (option Z)))
    (models_params : gmap string (gmap string (gmap string Z)))
    (config : gmap string PyVal) (agent_type : string)
    (model : option BaseChatModel) (e : exception) :
  (isinstance_RuntimeError e = true ->
   effective_config (Raise e) config = Ok config /\
   get_model_token_limit is_claude_37 (Raise e) get_model_info models_params
     config agent_type model
   = get_model_token_limit is_claude_37 (Ok config) get_model_info models_params
       config agent_type model) /\
  (isinstance_RuntimeError e = false ->
   get_model_token_limit is_claude_37 (Raise e) get_model_info models_params
     config agent_type model
   = Ok None).
Proof.
  split; intros Hcls.
  - unfold get_model_token_limit, resolve_limit, effective_config,
      try_except_RuntimeError.
    rewrite Hcls. split; reflexivity.
  - unfold get_model_token_limit, resolve_limit, effective_config,
      try_except_RuntimeError.
    rewrite Hcls. reflexivity.
Qed.

(** ** The definitions at work on concrete inputs *)




Lemma get_model_token_limit_never_raises_witness :
  isinstance_RuntimeError KeyError = false /\
  get_model_token_limit sample_is_claude_37 (Raise KeyError) known_model_info
    sample_models_params sample_config "default" None
  = Ok None.
Proof.
  split; [reflexivity|].
  apply (proj2 (proj2 (get_model_token_limit_never_raises sample_is_claude_37
                         (Raise KeyError) known_model_info sample_models_params
                         sample_config "default" None)) KeyError);
    reflexivity.
Defined.

Lemma trimmed_is_prefix_then_suffix_witness :
  sample_history <> [] /\
  (length (state_modifier "claude" sample_token_counter
             {| messages := sample_history |} None 60) <= length sample_history)%nat /\
  (length (sonnet_35_state_modifier sample_estimate_tokens
             {| messages := sample_history |} 18) <= length sample_history)%nat.
Proof.
  split; [discriminate|]. split.
  - apply (trimmed_is_prefix_then_suffix "claude" sample_estimate_tokens
             sample_token_counter {| messages := sample_history |} None 60).
    discriminate.
  - apply (trimmed_is_prefix_then_suffix "claude" sample_estimate_tokens
             sample_token_counter {| messages := sample_history |} None 18).
    discriminate.
Defined.

Lemma adjust_subtracts_output_budget_witness :
  200000 <> 0 /\ 64000 <> 0 /\
  sample_is_claude_37 "claude-3-7-sonnet-20250219" = true /\
  adjust_claude_37_token_limit sample_is_claude_37 (Some 200000)
    (Some (claude_37_handle 64000))
  = Some 136000.
Proof.
  split; [lia|]. split; [lia|]. split; [reflexivity|].
  apply (proj1 (adjust_subtracts_output_budget sample_is_claude_37)
           200000 64000 (claude_37_handle 64000) "claude-3-7-sonnet-20250219");
    first [lia | reflexivity].
Defined.

Lemma role_keys_take_precedence_witness :
  research_config !! "research_model" = Some (VStr "m1") /\
  truthy (VStr "m1") = true /\
  (get_provider_and_model_for_agent_type research_config "research").2 = VStr "m1" /\
  (get_provider_and_model_for_agent_type research_config "default").2 = VStr "m2".
Proof.
  split; [reflexivity|]. split; [reflexivity|]. split.
  - apply (proj1 (role_keys_take_precedence research_config) "research");
      [left; reflexivity | reflexivity | reflexivity].
  - apply (proj2 (proj2 (role_keys_take_precedence research_config))).
    reflexivity.
Defined.

Lemma fallback_lookup_normalizes_name_witness :
  effective_config (Raise RuntimeError) sample_config = Ok sample_config /\
  get_provider_and_model_for_agent_type sample_config "default"
  = (VStr "anthropic", VStr "claude-2") /\
  sample_models_params !! "anthropic"
  = Some {[ "claude2" := {[ "token_limit" := 100000 ]} ]} /\
  get_model_token_limit sample_is_claude_37 (Raise RuntimeError) unknown_model_info
    sample_models_params sample_config "default" None
  = Ok (Some 100000).
Proof.
  split; [reflexivity|]. split; [reflexivity|]. split; [reflexivity|].
  apply (proj1 (fallback_lookup_normalizes_name sample_is_claude_37
                  (Raise RuntimeError) unknown_model_info sample_models_params
                  sample_config sample_config "default" None "anthropic" "claude-2"
                  eq_refl eq_refl eq_refl)
           {[ "claude2" := {[ "token_limit" := 100000 ]} ]}
           {[ "token_limit" := 100000 ]} 100000);
    reflexivity.
Defined.

Lemma metadata_failure_falls_back_witness :
  get_model_token_limit sample_is_claude_37 (Ok sample_config) unknown_model_info
    sample_models_params sample_config "default" None
  = Ok (Some 100000) /\
  get_model_token_limit sample_is_claude_37 (Ok sample_config) bare_model_info
    sample_models_params sample_config "default" None
  = Ok (Some 100000) /\
  get_model_token_limit sample_is_claude_37 (Ok sample_config) known_model_info
    sample_models_params sample_config "default" (Some (claude_37_handle 64000))
  = Ok (Some 136000).
Proof.
  split; [|split].
  - apply (proj1 (metadata_failure_falls_back sample_is_claude_37 (Ok sample_config)
                    unknown_model_info sample_models_params sample_config
                    sample_config "default" None (VStr "anthropic") (VStr "claude-2")
                    eq_refl eq_refl) (OtherException "Exception")).
    reflexivity.
  - apply (proj1 (proj2 (metadata_failure_falls_back sample_is_claude_37
                           (Ok sample_config) bare_model_info sample_models_params
                           sample_config sample_config "default" None
                           (VStr "anthropic") (VStr "claude-2") eq_refl eq_refl))
             {[ "max_output_tokens" := Some 4096 ]});
      reflexivity.
  - exact (proj2 (proj2 (metadata_failure_falls_back sample_is_claude_37
                           (Ok sample_config) known_model_info sample_models_params
                           sample_config sample_config "default"
                           (Some (claude_37_handle 64000))
                           (VStr "anthropic") (VStr "claude-2") eq_refl eq_refl))
             {[ "max_input_tokens" := Some 200000 ]} eq_refl eq_refl).
Defined.

Lemma prefix_over_budget_keeps_prefix_only_witness :
  5 <= estimate_messages_tokens sample_estimate_tokens [msg "system" "0123456789"] /\
  sonnet_35_state_modifier sample_estimate_tokens
    {| messages := [msg "system" "0123456789"; msg "ai" ""; msg "human" "ab"] |} 5
  = [msg "system" "0123456789"] /\
  35 <= create_token_counter_wrapper sample_token_counter "claude"
          (take 2 sample_history) /\
  state_modifier "claude" sample_token_counter {| messages := sample_history |} None 35
  = take 2 sample_history.
Proof.
  pose proof (prefix_over_budget_keeps_prefix_only "claude" sample_estimate_tokens
                sample_token_counter) as [HA HB].
  split; [vm_compute; discriminate|]. split.
  - apply (HB (msg "system" "0123456789") [msg "ai" ""; msg "human" "ab"] 5).
    vm_compute. discriminate.
  - split; [vm_compute; discriminate|].
    apply (HA {| messages := sample_history |} None 35).
    vm_compute. discriminate.
Defined.


Lemma config_runtime_error_falls_back_witness :
  isinstance_RuntimeError RuntimeError = true /\
  get_model_token_limit sample_is_claude_37 (Raise RuntimeError) known_model_info
    sample_models_params sample_config "default" None
  = get_model_token_limit sample_is_claude_37 (Ok sample_config) known_model_info
      sample_models_params sample_config "default" None.
Proof.
  split; [reflexivity|].
  apply (proj1 (config_runtime_error_falls_back sample_is_claude_37 known_model_info
                  sample_models_params sample_config "default" None RuntimeError)).
  reflexivity.
Defined.

Lemma adjust_never_raises_the_limit_witness :
  (exists adjusted : Z,
      adjust_claude_37_token_limit sample_is_claude_37 (Some 200000)
        (Some (claude_37_handle 64000)) = Some adjusted /\
      adjusted <= 200000) /\
  (exists adjusted : Z,
      adjust_claude_37_token_limit sample_is_claude_37 (Some 4096)
        (Some (claude_37_handle 64000)) = Some adjusted /\
      adjusted <= 0 /\ (4096 <> 0 -> adjusted = 4096 - 64000)).
Proof.
  split.
  - apply (proj1 (adjust_never_raises_the_limit sample_is_claude_37) 200000
             (Some (claude_37_handle 64000))).
    intros out_budget Hmax. simpl in Hmax. injection Hmax as <-. lia.
  - apply (proj2 (proj2 (adjust_never_raises_the_limit sample_is_claude_37))
             4096 64000 (claude_37_handle 64000) "claude-3-7-sonnet-20250219");
      first [lia | reflexivity].
Defined.

(** ** Where the spec goes beyond the code *)


(** C9 fails when reading the configuration raises anything but a
    [RuntimeError]: the outcome is None although the caller's
    configuration resolves to 200000. *)
Lemma config_other_error_gives_none :
  get_model_token_limit sample_is_claude_37 (Raise (OtherException "OperationalError"))
    known_model_info sample_models_params sample_config "default" None
  = Ok None /\
  get_model_token_limit sample_is_claude_37 (Ok sample_config)
    known_model_info sample_models_params sample_config "default" None
  = Ok (Some 200000).
Proof. split; reflexivity. Qed.

(** C10 fails for a handle whose [max_tokens] is negative: the result
    is greater than [max_input_tokens]. *)
Lemma negative_max_tokens_raises_limit :
  adjust_claude_37_token_limit sample_is_claude_37 (Some 100)
    (Some (claude_37_handle (-1)))
  = Some 101 /\
  ~ (101 <= 100).
Proof. split; [reflexivity | lia]. Qed.

(** ** Further properties: the fallback table *)

Lemma has_hyphen_differs (a b : string) :
  has_hyphen a = true -> has_hyphen b = false -> a <> b.
Proof. intros Ha Hb ->. congruence. Qed.

(** X10. A table row stored under a key that contains a hyphen is never
    found: removing it changes no fallback lookup, and a provider whose
    keys all contain a hyphen has no limit for any model name. *)
Theorem hyphenated_table_key_is_never_found
    (table : gmap string (gmap string (gmap string Z)))
    (provider name : string) (rows : gmap string (gmap string Z)) :
  table !! provider = Some rows ->
  (forall key : string,
      has_hyphen key = true ->
      fallback_limit (<[provider := delete key rows]> table) (VStr provider) (VStr name)
      = fallback_limit table (VStr provider) (VStr name)) /\
  ((forall key : string, is_Some (rows !! key) -> has_hyphen key = true) ->
   fallback_limit table (VStr provider) (VStr name) = Ok None).
Proof.
  intros Hrows. split.
  - intros key Hkey. unfold fallback_limit, dict_get. simpl. unfold_bind.
    rewrite lookup_insert_eq, Hrows. simpl.
    rewrite lookup_delete_ne; [reflexivity|].
    apply has_hyphen_differs; [exact Hkey | apply has_hyphen_replace_hyphen].
  - intros Hall. unfold fallback_limit, dict_get. simpl. unfold_bind.
    rewrite Hrows. simpl.
    destruct (rows !! replace_hyphen name) as [row|] eqn:Hrow; [|reflexivity].
    assert (Hhyphen : has_hyphen (replace_hyphen name) = true).
    { apply Hall. rewrite Hrow. eexists. reflexivity. }
    rewrite has_hyphen_replace_hyphen in Hhyphen. discriminate.
Qed.

(** ** Further properties: the sessions router *)

Lemma except_DatabaseError_contains {A : Type} (body : Sessions.outcome A)
    (message : string) :
  Sessions.except_DatabaseError body <> Sessions.Raised (Sessions.DatabaseError message).
Proof. destruct body as [a|[msg|code detail|cls msg]]; discriminate. Qed.

Lemma except_DatabaseError_maps {A : Type} (body : Sessions.outcome A)
    (message : string) :
  body = Sessions.Raised (Sessions.DatabaseError message) ->
  Sessions.except_DatabaseError body
  = Sessions.Raised (Sessions.HTTPException 500 ("Database error: " +:+ message)).
Proof. intros ->. reflexivity. Qed.

(** X11. No handler of the sessions router lets a database error reach
    its caller: a [peewee.DatabaseError] raised by the repository leaves
    [list_sessions], [get_session] and [create_session] as an
    HTTPException with status 500 and detail "Database error: " followed by
    the error's text. *)
Theorem sessions_database_error_becomes_500 (SessionModel : Type)
    (repo : Sessions.SessionRepository SessionModel) (offset limit session_id : Z)
    (request : option Sessions.CreateSessionRequest) :
  (forall message,
      Sessions.list_sessions SessionModel offset limit repo
      <> Sessions.Raised (Sessions.DatabaseError message) /\
      Sessions.get_session SessionModel session_id repo
      <> Sessions.Raised (Sessions.DatabaseError message) /\
      Sessions.create_session SessionModel request repo
      <> Sessions.Raised (Sessions.DatabaseError message)) /\
  (forall message,
      Sessions.repo_get_all SessionModel repo offset limit
      = Sessions.Raised (Sessions.DatabaseError message) ->
      Sessions.list_sessions SessionModel offset limit repo
      = Sessions.Raised (Sessions.HTTPException 500 ("Database error: " +:+ message))) /\
  (forall message,
      Sessions.repo_get SessionModel repo session_id
      = Sessions.Raised (Sessions.DatabaseError message) ->
      Sessions.get_session SessionModel session_id repo
      = Sessions.Raised (Sessions.HTTPException 500 ("Database error: " +:+ message))) /\
  (forall message metadata,
      metadata = match request with
                 | Some body => Sessions.metadata body
                 | None => None
                 end ->
      Sessions.repo_create_session SessionModel repo metadata
      = Sessions.Raised (Sessions.DatabaseError message) ->
      Sessions.create_session SessionModel request repo
      = Sessions.Raised (Sessions.HTTPException 500 ("Database error: " +:+ message))).
Proof.
  split; [|split; [|split]].
  - intros message. repeat split; apply except_DatabaseError_contains.
  - intros message Hrepo. unfold Sessions.list_sessions. rewrite Hrepo. reflexivity.
  - intros message Hrepo. unfold Sessions.get_session. rewrite Hrepo. reflexivity.
  - intros message metadata -> Hrepo. unfold Sessions.create_session.
    cbv zeta. rewrite Hrepo. reflexivity.
Qed.

(** X12. [get_session] returns a session exactly when the repository
    found one, and that very session; when the repository finds none the
    caller gets status 404 with the identifier in the detail, not a 500;
    an exception that is not a database error passes through unchanged. *)
Theorem get_session_outcomes (SessionModel : Type)
    (repo : Sessions.SessionRepository SessionModel) (session_id : Z) :
  (forall found,
      Sessions.get_session SessionModel session_id repo = Sessions.Return found <->
      Sessions.repo_get SessionModel repo session_id = Sessions.Return (Some found)) /\
  (Sessions.repo_get SessionModel repo session_id = Sessions.Return None ->
   Sessions.get_session SessionModel session_id repo
   = Sessions.Raised
       (Sessions.HTTPException 404
          ("Session with ID " +:+ pretty session_id +:+ " not found"))) /\
  (forall e,
      (forall message, e <> Sessions.DatabaseError message) ->
      Sessions.repo_get SessionModel repo session_id = Sessions.Raised e ->
      Sessions.get_session SessionModel session_id repo = Sessions.Raised e).
Proof.
  unfold Sessions.get_session. split; [|split].
  - intros found.
    destruct (Sessions.repo_get SessionModel repo session_id)
      as [[session|]|[msg|code detail|cls msg]]; simpl; split; congruence.
  - intros ->. reflexivity.
  - intros e Hnot ->. destruct e as [msg|code detail|cls msg]; try reflexivity.
    exfalso. apply (Hnot msg). reflexivity.
Qed.

(** ** The further properties on concrete inputs *)


Lemma provider_and_model_depend_on_keys_read_witness :
  (forall key, key ∈ keys_read "research" ->
               research_config !! key
               = (<["planner_model" := VStr "p"]> research_config) !! key) /\
  get_provider_and_model_for_agent_type research_config "research"
  = get_provider_and_model_for_agent_type
      (<["planner_model" := VStr "p"]> research_config) "research".
Proof.
  assert (Hagree : forall key, key ∈ keys_read "research" ->
                     research_config !! key
                     = (<["planner_model" := VStr "p"]> research_config) !! key).
  { intros key Hkey. apply list_elem_of_In in Hkey. simpl in Hkey.
    destruct Hkey as [<-|[<-|[<-|[<-|[]]]]]; reflexivity. }
  split; [exact Hagree|].
  apply (proj1 (provider_and_model_depend_on_keys_read research_config
                  (<["planner_model" := VStr "p"]> research_config) "research" Hagree)).
Defined.

Lemma unconfigured_resolves_to_empty_names_witness :
  effective_config (Raise RuntimeError) ∅ = Ok ∅ /\
  get_provider_and_model_for_agent_type ∅ "planner" = (VStr "", VStr "") /\
  get_model_token_limit sample_is_claude_37 (Raise RuntimeError) unknown_model_info
    sample_models_params ∅ "planner" None
  = Ok None.
Proof.
  pose proof (unconfigured_resolves_to_empty_names sample_is_claude_37
                (Raise RuntimeError) unknown_model_info sample_models_params
                ∅ ∅ "planner" None eq_refl
                (fun key _ => lookup_empty key)) as [Hnames [_ Hnone]].
  split; [reflexivity|]. split; [exact Hnames|].
  apply (Hnone (OtherException "Exception")); reflexivity.
Defined.

Lemma fallback_errors_give_none_witness :
  get_provider_and_model_for_agent_type none_model_config "default"
  = (VStr "anthropic", VNone) /\
  get_model_token_limit sample_is_claude_37 (Raise RuntimeError) unknown_model_info
    sample_models_params none_model_config "default" None
  = Ok None /\
  get_model_token_limit sample_is_claude_37 (Raise RuntimeError) unknown_model_info
    limitless_models_params sample_config "default" None
  = Ok None.
Proof.
  split; [reflexivity|]. split.
  - apply (proj1 (fallback_errors_give_none sample_is_claude_37 (Raise RuntimeError)
                    unknown_model_info sample_models_params none_model_config
                    none_model_config "default" None (VStr "anthropic") VNone
                    eq_refl eq_refl eq_refl)).
    intros s. discriminate.
  - apply (proj2 (fallback_errors_give_none sample_is_claude_37 (Raise RuntimeError)
                    unknown_model_info limitless_models_params sample_config
                    sample_config "default" None (VStr "anthropic") (VStr "claude-2")
                    eq_refl eq_refl eq_refl)
             "anthropic" "claude-2" {[ "claude2" := {[ "max_tokens" := 4096 ]} ]}
             {[ "max_tokens" := 4096 ]});
      reflexivity.
Defined.

Lemma live_configuration_overrides_argument_witness :
  get_model_token_limit sample_is_claude_37 (Ok sample_config) known_model_info
    sample_models_params ∅ "default" None
  = get_model_token_limit sample_is_claude_37 (Ok sample_config) known_model_info
      sample_models_params research_config "default" None.
Proof.
  apply (live_configuration_overrides_argument sample_is_claude_37 (Ok sample_config)
           known_model_info sample_models_params sample_config ∅ research_config
           "default" None).
  reflexivity.
Defined.

Lemma adjust_changes_only_claude_37_limits_witness :
  adjust_claude_37_token_limit sample_is_claude_37 (Some 200000)
    (Some (claude_37_handle 64000)) <> Some 200000 /\
  exists (limit out_budget : Z) (m : BaseChatModel) (id : string),
    Some 200000 = Some limit /\ limit <> 0 /\
    Some (claude_37_handle 64000) = Some m /\ model_attr m = Some id /\
    sample_is_claude_37 id = true /\
    max_tokens_attr m = Some (Some out_budget) /\ out_budget <> 0 /\
    adjust_claude_37_token_limit sample_is_claude_37 (Some 200000)
      (Some (claude_37_handle 64000)) = Some (limit - out_budget).
Proof.
  split; [vm_compute; discriminate|].
  apply (adjust_changes_only_claude_37_limits sample_is_claude_37 (Some 200000)
           (Some (claude_37_handle 64000))).
  vm_compute. discriminate.
Defined.

Lemma trimmed_history_fits_budget_witness :
  state_modifier "claude" sample_token_counter {| messages := sample_history |} None 60
  <> take 2 sample_history /\
  create_token_counter_wrapper sample_token_counter "claude"
    (state_modifier "claude" sample_token_counter {| messages := sample_history |} None 60)
  <= 60.
Proof.
  split; [vm_compute; discriminate|].
  apply (proj1 (trimmed_history_fits_budget "claude" sample_estimate_tokens
                  sample_token_counter {| messages := sample_history |} None 60)).
  vm_compute. discriminate.
Defined.

Lemma trimming_drops_only_what_overflows_witness :
  sonnet_35_state_modifier sample_estimate_tokens {| messages := sample_history |} 18
  <> sample_history /\
  ((18 <= estimate_messages_tokens sample_estimate_tokens (take 1 sample_history) /\
    sonnet_35_state_modifier sample_estimate_tokens {| messages := sample_history |} 18
    = take 1 sample_history) \/
   exists (first_message m : BaseMessage) (before kept : list BaseMessage),
     sample_history = first_message :: before ++ m :: kept /\
     sonnet_35_state_modifier sample_estimate_tokens {| messages := sample_history |} 18
     = first_message :: kept /\
     18 < estimate_messages_tokens sample_estimate_tokens (first_message :: m :: kept)).
Proof.
  split; [vm_compute; discriminate|].
  apply (proj2 (trimming_drops_only_what_overflows "claude" sample_estimate_tokens
                  sample_token_counter {| messages := sample_history |} None 18)).
  vm_compute. discriminate.
Defined.

Lemma hyphenated_table_key_is_never_found_witness :
  hyphenated_models_params !! "anthropic"
  = Some {[ "claude-2" := {[ "token_limit" := 100000 ]} ]} /\
  has_hyphen "claude-2" = true /\
  fallback_limit hyphenated_models_params (VStr "anthropic") (VStr "claude-2") = Ok None.
Proof.
  split; [reflexivity|]. split; [reflexivity|].
  apply (proj2 (hyphenated_table_key_is_never_found hyphenated_models_params
                  "anthropic" "claude-2"
                  {[ "claude-2" := {[ "token_limit" := 100000 ]} ]} eq_refl)).
  intros key [row Hrow]. apply lookup_singleton_Some in Hrow as [<- _]. reflexivity.
Defined.

Lemma sessions_database_error_becomes_500_witness :
  Sessions.repo_get Z sample_repository 13
  = Sessions.Raised (Sessions.DatabaseError "database is locked") /\
  Sessions.get_session Z 13 sample_repository
  = Sessions.Raised (Sessions.HTTPException 500 "Database error: database is locked") /\
  Sessions.create_session Z None sample_repository
  = Sessions.Raised (Sessions.HTTPException 500 "Database error: database is locked").
Proof.
  pose proof (sessions_database_error_becomes_500 Z sample_repository 0 10 13 None)
    as [_ [_ [Hget Hcreate]]].
  split; [reflexivity|]. split.
  - apply (Hget "database is locked"). reflexivity.
  - apply (Hcreate "database is locked" None); reflexivity.
Defined.

Lemma get_session_outcomes_witness :
  Sessions.repo_get Z sample_repository 7 = Sessions.Return None /\
  Sessions.get_session Z 7 sample_repository
  = Sessions.Raised (Sessions.HTTPException 404 "Session with ID 7 not found") /\
  Sessions.get_session Z 2 sample_repository = Sessions.Return 2.
Proof.
  split; [reflexivity|]. split.
  - apply (proj1 (proj2 (get_session_outcomes Z sample_repository 7))). reflexivity.
  - apply (proj1 (get_session_outcomes Z sample_repository 2) 2). reflexivity.
Defined.

Lemma limit_comes_from_litellm_or_table_witness :
  get_model_token_limit sample_is_claude_37 (Ok sample_config) known_model_info
    sample_models_params sample_config "default" (Some (claude_37_handle 64000))
  = Ok (Some 136000) /\
  exists (cfg : gmap string PyVal) (raw : Z),
    effective_config (Ok sample_config) sample_config = Ok cfg /\
    adjust_claude_37_token_limit sample_is_claude_37 (Some raw)
      (Some (claude_37_handle 64000)) = Some 136000 /\
    ((exists info : gmap string (option Z),
         known_model_info
           (provider_model (get_provider_and_model_for_agent_type cfg "default").1
              (get_provider_and_model_for_agent_type cfg "default").2)
         = Ok info /\
         dict_get info "max_input_tokens" None = Some raw /\ raw <> 0) \/
     (exists (p name : string) (rows : gmap string (gmap string Z))
             (row : gmap string Z),
         get_provider_and_model_for_agent_type cfg "default" = (VStr p, VStr name) /\
         sample_models_params !! p = Some rows /\
         rows !! replace_hyphen name = Some row /\
         row !! "token_limit" = Some raw)).
Proof.
  split; [reflexivity|].
  apply (limit_comes_from_litellm_or_table sample_is_claude_37 (Ok sample_config)
           known_model_info sample_models_params sample_config "default"
           (Some (claude_37_handle 64000)) 136000).
  reflexivity.
Defined.
